(** * Budget manager: the transaction store and the summary figures of app.py

    The development follows src/app.py top to bottom:
    - [Store]: the [transactions] table, the CREATE TABLE IF NOT EXISTS and
      INSERT statements, and the SELECT ... ORDER BY date DESC query;
    - [App]: the process state (database, [st.cache_resource] entry of
      [init_db], [st.cache_data] entry of [get_all_transactions]) and the
      three functions [init_db], [add_transaction], [get_all_transactions],
      together with the sidebar form;
    - [Frame] and [Page]: the data frame operations and the expressions of
      the summary and of the two charts.

    Conventions.  A [datetime.date] is its proleptic ordinal (a [Z]); an
    amount is an exact decimal counted in hundredths (the form prints
    amounts with two decimals and its least value 0.01 is [1]); rounding of
    binary floating point is outside the model. *)

From Stdlib Require Import ZArith List Lia Sorting.Sorted Sorting.Permutation.
From stdpp Require Import gmap strings list fin_maps sorting.
Import ListNotations.

Local Open Scope string_scope.
Local Open Scope Z_scope.

(** ** Results of operations that may raise *)

Inductive error : Type :=
  | UndefinedTable      (* relation "transactions" does not exist *)
  | UniqueViolation.    (* duplicate key value violates the primary key *)

Inductive result (A : Type) : Type :=
  | Ok (a : A)
  | Err (e : error).
Arguments Ok {A} a.
Arguments Err {A} e.

(** What a Python call hands back to its caller. *)
Inductive pyret : Type :=
  | PyNone
  | PyInt (n : Z).

(** ** The relational store *)

Module Store.

(** One row of [transactions], columns as declared by [init_db].  The
    NOT NULL columns are plain values, [description] is nullable. *)
Record Row : Type := mkRow {
  row_id : Z;
  row_date : Z;
  row_type : string;
  row_category : string;
  row_amount : Z;
  row_description : option string
}.

(** The relation with the sequence behind [id SERIAL]: [tbl_seq] is the
    value the next [nextval] returns. *)
Record Table : Type := mkTable {
  tbl_rows : list Row;
  tbl_seq : Z
}.

(** The database: the relation is present or not. *)
Definition Database : Type := option Table.

Definition empty_table : Table := mkTable [] 1.

(** CREATE TABLE IF NOT EXISTS transactions (...) *)
Definition create_table_if_not_exists (db : Database) : Database :=
  match db with
  | Some t => Some t
  | None => Some empty_table
  end.

Definition ids (t : Table) : list Z := map row_id (tbl_rows t).

Definition id_used (i : Z) (t : Table) : bool :=
  existsb (Z.eqb i) (ids t).

(** INSERT INTO transactions (date, type, category, amount, description)
    VALUES (...): the id comes from the sequence, and PRIMARY KEY rejects
    an id that is already stored.  A rejected statement yields the error
    alone; the properties below concern tables whose ids all lie below the
    sequence ([serial_fresh]), where no statement is rejected. *)
Definition insert (date : Z) (type category : string) (amount : Z)
    (description : option string) (db : Database) : result Database :=
  match db with
  | None => Err UndefinedTable
  | Some t =>
      let i := tbl_seq t in
      if id_used i t then Err UniqueViolation
      else Ok (Some (mkTable
             (tbl_rows t ++ [mkRow i date type category amount description])
             (i + 1)))
  end.

(** ORDER BY date DESC, as a sort that keeps rows of one date in table
    order. *)
Fixpoint insert_desc (r : Row) (l : list Row) : list Row :=
  match l with
  | [] => [r]
  | x :: l' =>
      if row_date x <=? row_date r then r :: x :: l'
      else x :: insert_desc r l'
  end.

Definition order_by_date_desc (l : list Row) : list Row :=
  foldr insert_desc [] l.

(** A record of the query result: the five selected columns. *)
Record Selected : Type := mkSelected {
  sel_date : Z;
  sel_type : string;
  sel_category : string;
  sel_amount : Z;
  sel_description : option string
}.

Definition select_columns (r : Row) : Selected :=
  mkSelected (row_date r) (row_type r) (row_category r) (row_amount r)
             (row_description r).

(** SELECT date, type, category, amount, description FROM transactions
    ORDER BY date DESC *)
Definition select_all (db : Database) : result (list Selected) :=
  match db with
  | None => Err UndefinedTable
  | Some t => Ok (map select_columns (order_by_date_desc (tbl_rows t)))
  end.

(** Every stored id was handed out by the sequence already. *)
Definition serial_fresh (t : Table) : bool :=
  forallb (fun i => i <? tbl_seq t) (ids t).

End Store.

(** ** Data frames: the pandas operations the page uses *)

Module Frame.

(** A [datetime64] value: the day and the nanoseconds elapsed in it. *)
Record Timestamp : Type := mkTimestamp {
  ts_day : Z;
  ts_time : Z
}.

(** [pd.to_datetime] on a date: midnight of that day. *)
Definition to_datetime (d : Z) : Timestamp := mkTimestamp d 0.

(** The [.dt.date] accessor. *)
Definition dt_date (t : Timestamp) : Z := ts_day t.

(** A row of the frame returned by [get_all_transactions]. *)
Record Transaction : Type := mkTransaction {
  date : Timestamp;
  type : string;
  category : string;
  amount : Z;
  description : option string
}.

Definition DataFrame : Type := list Transaction.

(** [df.empty] *)
Definition empty (df : DataFrame) : bool :=
  match df with
  | [] => true
  | _ :: _ => false
  end.

(** [df[df["type"] == t]] *)
Definition where_type (t : string) (df : DataFrame) : DataFrame :=
  List.filter (fun r => String.eqb (type r) t) df.

(** [Series.sum()]: 0 on an empty series. *)
Definition sum (xs : list Z) : Z := fold_left Z.add xs 0.

(** [df["amount"]] *)
Definition amounts (df : DataFrame) : list Z := map amount df.

(** One step of a group-by with sorted keys: add [v] to the group of key
    [k], opening the group at its place when it is new. *)
Fixpoint add_to_group (k v : Z) (g : list (Z * Z)) : list (Z * Z) :=
  match g with
  | [] => [(k, v)]
  | (k', v') :: g' =>
      if k <? k' then (k, v) :: (k', v') :: g'
      else if k =? k' then (k', v' + v) :: g'
      else (k', v') :: add_to_group k v g'
  end.

(** [df.groupby(df['date'].dt.date)['amount'].sum().reset_index()]:
    group keys are sorted ([sort=True] is the default). *)
Definition groupby_date_sum (df : DataFrame) : list (Z * Z) :=
  fold_left (fun g r => add_to_group (dt_date (date r)) (amount r) g) df [].

(** The data of [px.pie(df, names="category", values="amount")]: the
    figure is built from the rows of [df] as they are, one label and one
    value per row.  Nothing is grouped or added up here; what the chart
    does with a repeated label happens where it is drawn. *)
Definition px_pie (df : DataFrame) : list (string * Z) :=
  map (fun r => (category r, amount r)) df.

End Frame.

(** ** The page below the form (data retrieval, summary, charts) *)

Module Page.
Import Frame.

Definition total_income (transactions_df : DataFrame) : Z :=
  sum (amounts (where_type "Income" transactions_df)).

Definition total_expenses (transactions_df : DataFrame) : Z :=
  sum (amounts (where_type "Expense" transactions_df)).

Definition net_savings (transactions_df : DataFrame) : Z :=
  total_income transactions_df - total_expenses transactions_df.

Definition expenses_df (transactions_df : DataFrame) : DataFrame :=
  where_type "Expense" transactions_df.

Definition expenses_by_day (transactions_df : DataFrame) : list (Z * Z) :=
  groupby_date_sum (expenses_df transactions_df).

Definition fig_pie (transactions_df : DataFrame) : list (string * Z) :=
  px_pie (expenses_df transactions_df).

Inductive Charts : Type :=
  | NoExpenses                       (* "No expenses recorded to visualize." *)
  | Figures (pie : list (string * Z)) (bar : list (Z * Z)).

Inductive View : Type :=
  | NoTransactions                   (* "No transactions yet. ..." *)
  | Dashboard (income expenses net : Z) (charts : Charts)
              (history : DataFrame).

(** What one run of the script shows for the frame it read. *)
Definition render (transactions_df : DataFrame) : View :=
  if empty transactions_df then NoTransactions
  else
    Dashboard
      (total_income transactions_df)
      (total_expenses transactions_df)
      (net_savings transactions_df)
      (if empty (expenses_df transactions_df) then NoExpenses
       else Figures (fig_pie transactions_df)
                    (expenses_by_day transactions_df))
      transactions_df.

End Page.

(** ** The process: connection, caches, data functions, form *)

Module App.
Import Store Frame.

(** What persists from one run of the script to the next: the database
    behind [conn], whether [st.cache_resource] holds the result of
    [init_db], and what [st.cache_data] holds for
    [get_all_transactions]. *)
Record State : Type := mkState {
  db : Database;
  init_db_cached : bool;
  transactions_cached : option DataFrame
}.

(** A process that has just connected to [d]: both caches are empty. *)
Definition start (d : Database) : State := mkState d false None.

(** [init_db], under [@st.cache_resource]: the body runs once per
    process, later calls are answered from the cache. *)
Definition init_db (s : State) : State :=
  if init_db_cached s then s
  else mkState (create_table_if_not_exists (db s)) true
               (transactions_cached s).

(** [add_transaction]: INSERT and commit, then [st.cache_data.clear()].
    The function has no [return]; when the statement raises, the
    exception leaves the function before the cache is cleared. *)
Definition add_transaction (date : Z) (type category : string)
    (amount : Z) (description : option string) (s : State)
    : result (State * pyret) :=
  match insert date type category amount description (db s) with
  | Err e => Err e
  | Ok d => Ok (mkState d (init_db_cached s) None, PyNone)
  end.

(** The frame built from the query result: [date] becomes a datetime
    column. *)
Definition frame_of (l : list Selected) : DataFrame :=
  map (fun r => mkTransaction (to_datetime (sel_date r)) (sel_type r)
                  (sel_category r) (sel_amount r) (sel_description r)) l.

(** [conn.query(..., ttl=0)] followed by the conversion of [date]. *)
Definition read_transactions (d : Database) : result DataFrame :=
  match select_all d with
  | Err e => Err e
  | Ok l => Ok (frame_of l)
  end.

(** [get_all_transactions], under [@st.cache_data]. *)
Definition get_all_transactions (s : State) : result (State * DataFrame) :=
  match transactions_cached s with
  | Some df => Ok (s, df)
  | None =>
      match read_transactions (db s) with
      | Err e => Err e
      | Ok df => Ok (mkState (db s) (init_db_cached s) (Some df), df)
      end
  end.

(** The values of the sidebar widgets in one run of the script. *)
Record Widgets : Type := mkWidgets {
  type_input : string;
  date_input : Z;
  category_input : string;
  amount_input : Z;
  description_input : string;
  submitted : bool
}.

Definition type_options : list string := ["Income"; "Expense"].

Definition categories (type_input : string) : list string :=
  if String.eqb type_input "Income"
  then ["Salary"; "Gift"; "Part-Time"; "Bonus investment"; "Other"]
  else ["Food"; "Investment"; "Utilities"; "Entertainment"; "Transport";
        "shopping"; "Other"].

(** [min_value=0.01] of the amount field, in hundredths. *)
Definition min_value : Z := 1.

Definition mem (x : string) (l : list string) : bool :=
  existsb (String.eqb x) l.

(** The widgets hold what their declarations allow: a select box one of
    its options, the number field a value not below its minimum. *)
Definition widgets_ok (w : Widgets) : bool :=
  mem (type_input w) type_options
  && mem (category_input w) (categories (type_input w))
  && (min_value <=? amount_input w).

(** The body of [with st.form("transaction_form", ...)]. *)
Definition transaction_form (w : Widgets) (s : State) : result State :=
  if submitted w then
    match add_transaction (date_input w) (type_input w) (category_input w)
            (amount_input w) (Some (description_input w)) s with
    | Err e => Err e
    | Ok (s', _) => Ok s'
    end
  else Ok s.

(** One run of the script: [init_db()], the form, the read, the page. *)
Definition script (w : Widgets) (s : State) : result (State * Page.View) :=
  match transaction_form w (init_db s) with
  | Err e => Err e
  | Ok s1 =>
      match get_all_transactions s1 with
      | Err e => Err e
      | Ok (s2, transactions_df) => Ok (s2, Page.render transactions_df)
      end
  end.

(** The runs of the script in one process, one per interaction of the
    user, each started on the state the run before left. *)
Fixpoint reruns (ws : list Widgets) (s : State) : result State :=
  match ws with
  | [] => Ok s
  | w :: ws' =>
      match script w s with
      | Err e => Err e
      | Ok (s', _) => reruns ws' s'
      end
  end.

(** The cached frame, when there is one, is what the query returns on
    the present database. *)
Definition coherent (s : State) : Prop :=
  match transactions_cached s with
  | None => True
  | Some df => read_transactions (db s) = Ok df
  end.

End App.

(** ** Reference definitions the properties are stated with *)

Module Spec.
Import Store Frame.

(** The transaction a stored row stands for: its five value columns, the
    date read as midnight of its day. *)
Definition as_transaction (r : Row) : Transaction :=
  mkTransaction (to_datetime (row_date r)) (row_type r) (row_category r)
                (row_amount r) (row_description r).

(** Every stored transaction, in table order. *)
Definition stored (t : Table) : DataFrame := map as_transaction (tbl_rows t).

(** [a] may stand before [b] under ORDER BY date DESC. *)
Definition row_desc (a b : Row) : Prop := row_date b <= row_date a.

(** Order of datetime values. *)
Definition ts_le (a b : Timestamp) : Prop :=
  ts_day a < ts_day b \/ (ts_day a = ts_day b /\ ts_time a <= ts_time b).

(** [a] may stand before [b] in a sequence ordered by date descending. *)
Definition date_desc (a b : Transaction) : Prop := ts_le (date b) (date a).

(** Sum of [amount] over the transactions whose [type] is [t]. *)
Fixpoint total (transactions : DataFrame) (t : string) : Z :=
  match transactions with
  | [] => 0
  | r :: rest =>
      if String.eqb (type r) t then amount r + total rest t
      else total rest t
  end.

(** [total(Income) - total(Expense)] *)
Definition net (transactions : DataFrame) : Z :=
  total transactions "Income" - total transactions "Expense".

Definition is_expense (r : Transaction) : bool := String.eqb (type r) "Expense".

(** Sum of [amount] over the Expense transactions of calendar date [d]. *)
Fixpoint expenses_on (d : Z) (transactions : DataFrame) : Z :=
  match transactions with
  | [] => 0
  | r :: rest =>
      if is_expense r && (dt_date (date r) =? d)
      then amount r + expenses_on d rest
      else expenses_on d rest
  end.


(** Sum of [amount] over the rows of [l] whose key is [k]. *)
Fixpoint key_total {K} `{EqDecision K} (key : Transaction -> K) (k : K)
    (l : DataFrame) : Z :=
  match l with
  | [] => 0
  | r :: rest =>
      if decide (key r = k) then amount r + key_total key k rest
      else key_total key k rest
  end.

(** Running totals per key: each row adds its amount to the entry of its
    key, starting from [m]. *)
Definition accumulate {K} `{Countable K} (key : Transaction -> K)
    (l : DataFrame) (m : gmap K Z) : gmap K Z :=
  fold_left (fun m r => <[key r := default 0 (m !! key r) + amount r]> m) l m.

(** The calendar date of a transaction. *)
Definition day (r : Transaction) : Z := dt_date (date r).

(** Group keys stand in strictly ascending order. *)
Definition ascending (g : list (Z * Z)) : Prop :=
  StronglySorted Z.lt (map fst g).

(** Some Expense transaction has calendar date [d]. *)
Definition expense_date (d : Z) (transactions : DataFrame) : Prop :=
  exists r, In r transactions /\ type r = "Expense" /\ dt_date (date r) = d.


(** The row a submitted form writes when the sequence stands at [i]. *)
Definition form_row (i : Z) (w : App.Widgets) : Row :=
  mkRow i (App.date_input w) (App.type_input w) (App.category_input w)
        (App.amount_input w) (Some (App.description_input w)).

(** The rows a series of forms writes, numbered from [i]: one for each
    submitted form, in the order of submission. *)
Fixpoint form_rows (i : Z) (ws : list App.Widgets) : list Row :=
  match ws with
  | [] => []
  | w :: ws' =>
      if App.submitted w then form_row i w :: form_rows (i + 1) ws'
      else form_rows i ws'
  end.

(** The table after the form [w] was handled: one more row when it was
    submitted, the same table otherwise. *)
Definition after_form (w : App.Widgets) (t : Table) : Table :=
  if App.submitted w
  then mkTable (tbl_rows t ++ [form_row (tbl_seq t) w]) (tbl_seq t + 1)
  else t.

End Spec.

(** ** Concrete stores and inputs used in the examples *)

Module Sample.
Import Store Frame App.

(** 2024-01-01 and 2024-01-02 as ordinals. *)
Definition jan1 : Z := 738886.
Definition jan2 : Z := 738887.

(** A process on a database without the relation, after [init_db]. *)
Definition fresh : State := init_db (start None).

(** The store after one coffee was entered. *)
Definition one_coffee : State :=
  mkState
    (Some (mkTable [mkRow 1 jan1 "Expense" "Food" 350 (Some "coffee")] 2))
    true None.

(** A store with three rows entered out of date order. *)
Definition three_rows : Table :=
  mkTable
    [ mkRow 1 jan1 "Expense" "Food" 500 (Some "lunch");
      mkRow 2 jan2 "Income" "Salary" 100000 (Some "");
      mkRow 3 jan1 "Expense" "Transport" 1500 None ]
    4.

(** The same rows under other ids. *)
Definition three_rows_renumbered : Table :=
  mkTable
    [ mkRow 7 jan1 "Expense" "Food" 500 (Some "lunch");
      mkRow 5 jan2 "Income" "Salary" 100000 (Some "");
      mkRow 9 jan1 "Expense" "Transport" 1500 None ]
    10.

(** Expenses of 10.00 on 2024-01-02 and of 5.00 on 2024-01-01. *)
Definition two_days : DataFrame :=
  [ mkTransaction (to_datetime jan2) "Expense" "Food" 1000 None;
    mkTransaction (to_datetime jan1) "Expense" "Food" 500 None ].

(** Expenses Food 20.00, Food 5.00 and Transport 15.00, and a salary. *)
Definition food_and_transport : DataFrame :=
  [ mkTransaction (to_datetime jan2) "Expense" "Food" 2000 None;
    mkTransaction (to_datetime jan2) "Income" "Salary" 100000 None;
    mkTransaction (to_datetime jan1) "Expense" "Food" 500 None;
    mkTransaction (to_datetime jan1) "Expense" "Transport" 1500 None ].

(** A filled-in form: 12.50 for food on 2024-01-02. *)
Definition food_form : Widgets :=
  mkWidgets "Expense" jan2 "Food" 1250 "groceries" true.

(** The form left untouched: nothing submitted. *)
Definition idle_form : Widgets :=
  mkWidgets "Income" jan2 "Salary" 1 "" false.

(** A salary of 1000.00 entered on 2024-01-01. *)
Definition salary_form : Widgets :=
  mkWidgets "Income" jan1 "Salary" 100000 "" true.

End Sample.

#[global] Instance Timestamp_eq_dec : EqDecision Frame.Timestamp.
Proof. solve_decision. Defined.

#[global] Instance Transaction_eq_dec : EqDecision Frame.Transaction.
Proof. solve_decision. Defined.

(** * Properties *)

(** ** The store *)

Section StoreFacts.
Import Store Spec.

Lemma insert_desc_perm (r : Row) (l : list Row) :
  Permutation (insert_desc r l) (r :: l).
Proof.
  induction l as [|x l IH]; simpl; [reflexivity|].
  destruct (row_date x <=? row_date r); [reflexivity|].
  rewrite IH. apply perm_swap.
Qed.

Lemma order_by_date_desc_perm (l : list Row) :
  Permutation (order_by_date_desc l) l.
Proof.
  induction l as [|r l IH]; simpl; [reflexivity|].
  rewrite insert_desc_perm. now constructor.
Qed.

Lemma insert_desc_sorted (r : Row) (l : list Row) :
  StronglySorted row_desc l -> StronglySorted row_desc (insert_desc r l).
Proof.
  induction 1 as [|x l Hs IH Hx]; simpl.
  - repeat constructor.
  - destruct (Z.leb_spec (row_date x) (row_date r)) as [Hle|Hlt].
    + constructor; [now constructor|].
      constructor; [exact Hle|].
      eapply Forall_impl; [exact Hx|]. unfold row_desc. intros; lia.
    + constructor; [exact IH|].
      rewrite insert_desc_perm. constructor; [unfold row_desc; lia|exact Hx].
Qed.

Lemma order_by_date_desc_sorted (l : list Row) :
  StronglySorted row_desc (order_by_date_desc l).
Proof.
  induction l as [|r l IH]; simpl; [constructor|].
  now apply insert_desc_sorted.
Qed.

End StoreFacts.

Lemma select_columns_insert_desc (r1 r2 : Store.Row) (l1 l2 : list Store.Row) :
  Store.select_columns r1 = Store.select_columns r2 ->
  map Store.select_columns l1 = map Store.select_columns l2 ->
  map Store.select_columns (Store.insert_desc r1 l1)
  = map Store.select_columns (Store.insert_desc r2 l2).
Proof.
  intros Hr. revert l2.
  induction l1 as [|x1 l1 IH]; intros [|x2 l2] Hl; cbn [map Store.insert_desc] in *;
    try discriminate.
  - now rewrite Hr.
  - assert (Store.select_columns x1 = Store.select_columns x2) as Hx
      by congruence.
    assert (map Store.select_columns l1 = map Store.select_columns l2) as Hl'
      by congruence.
    assert (Store.row_date r1 = Store.row_date r2) as ->
      by exact (f_equal Store.sel_date Hr).
    assert (Store.row_date x1 = Store.row_date x2) as ->
      by exact (f_equal Store.sel_date Hx).
    destruct (Store.row_date x2 <=? Store.row_date r2); cbn [map].
    + now rewrite Hr, Hx, Hl'.
    + now rewrite Hx, (IH l2 Hl').
Qed.

Lemma select_columns_order_by (l1 l2 : list Store.Row) :
  map Store.select_columns l1 = map Store.select_columns l2 ->
  map Store.select_columns (Store.order_by_date_desc l1)
  = map Store.select_columns (Store.order_by_date_desc l2).
Proof.
  revert l2.
  induction l1 as [|r1 l1 IH]; intros [|r2 l2] Hl;
    cbn [map Store.order_by_date_desc foldr] in *; try discriminate.
  - reflexivity.
  - apply select_columns_insert_desc; [congruence|].
    apply IH. congruence.
Qed.

Lemma fresh_not_used (t : Store.Table) :
  Store.serial_fresh t = true -> Store.id_used (Store.tbl_seq t) t = false.
Proof.
  unfold Store.serial_fresh, Store.id_used. intros Hf.
  rewrite forallb_forall in Hf.
  apply not_true_is_false. intros Hu.
  apply existsb_exists in Hu as (i & Hi & He).
  apply Z.eqb_eq in He. subst i.
  specialize (Hf _ Hi). apply Z.ltb_lt in Hf. lia.
Qed.

Lemma fresh_not_stored (t : Store.Table) :
  Store.serial_fresh t = true -> ~ In (Store.tbl_seq t) (Store.ids t).
Proof.
  unfold Store.serial_fresh. intros Hf Hi.
  rewrite forallb_forall in Hf.
  specialize (Hf _ Hi). apply Z.ltb_lt in Hf. lia.
Qed.

Lemma insert_fresh (t : Store.Table) d ty c a desc :
  Store.serial_fresh t = true ->
  Store.insert d ty c a desc (Some t)
  = Ok (Some (Store.mkTable
          (Store.tbl_rows t ++ [Store.mkRow (Store.tbl_seq t) d ty c a desc])
          (Store.tbl_seq t + 1))).
Proof.
  intros Hf. unfold Store.insert. now rewrite (fresh_not_used t Hf).
Qed.

Lemma insert_keeps_fresh (t : Store.Table) (r : Store.Row) :
  Store.serial_fresh t = true ->
  Store.row_id r = Store.tbl_seq t ->
  Store.serial_fresh
    (Store.mkTable (Store.tbl_rows t ++ [r]) (Store.tbl_seq t + 1)) = true.
Proof.
  unfold Store.serial_fresh, Store.ids. simpl. intros Hf Hr.
  rewrite forallb_forall in *. intros i Hi.
  rewrite map_app, in_app_iff in Hi. apply Z.ltb_lt.
  destruct Hi as [Hi|[<-|[]]].
  - specialize (Hf _ Hi). apply Z.ltb_lt in Hf. lia.
  - lia.
Qed.

(** ** The process *)

Lemma frame_of_select (l : list Store.Row) :
  App.frame_of (map Store.select_columns l) = map Spec.as_transaction l.
Proof. unfold App.frame_of. rewrite map_map. reflexivity. Qed.

Lemma read_transactions_table (t : Store.Table) :
  App.read_transactions (Some t)
  = Ok (map Spec.as_transaction (Store.order_by_date_desc (Store.tbl_rows t))).
Proof. unfold App.read_transactions. simpl. now rewrite frame_of_select. Qed.

Lemma get_all_transactions_reads (s : App.State) (t : Store.Table) :
  App.db s = Some t -> App.coherent s ->
  exists s',
    App.get_all_transactions s
    = Ok (s', map Spec.as_transaction
                (Store.order_by_date_desc (Store.tbl_rows t)))
    /\ App.db s' = App.db s /\ App.coherent s'.
Proof.
  intros Hdb Hc. pose proof Hc as Hc'.
  unfold App.get_all_transactions. unfold App.coherent in Hc.
  destruct (App.transactions_cached s) as [df|] eqn:Hcache.
  - rewrite Hdb, read_transactions_table in Hc. injection Hc as <-.
    exists s. auto.
  - rewrite Hdb, read_transactions_table. eexists. split; [reflexivity|].
    unfold App.coherent. simpl. rewrite read_transactions_table. auto.
Qed.

Lemma as_transaction_sorted (l : list Store.Row) :
  StronglySorted Spec.row_desc l ->
  StronglySorted Spec.date_desc (map Spec.as_transaction l).
Proof.
  induction 1 as [|x l Hs IH Hx]; simpl; constructor; [exact IH|].
  rewrite Forall_map. eapply Forall_impl; [exact Hx|].
  intros y Hy. unfold Spec.date_desc, Spec.ts_le, Spec.row_desc in *. simpl.
  lia.
Qed.

Section AppFacts.
Import Store Frame App.

(** C9: [init_db] (the spec's ensure_schema) is idempotent.  In a process
    that has not run it yet, it leaves a database that has the relation
    (created empty when it was absent, kept as it was when present); on any
    state a present relation is left untouched, and a second call changes
    nothing of what the first left: one relation, the same schema and
    rows.  The function is total: no call raises. *)
Theorem init_db_idempotent (d : Database) (t : Table) (cached : bool)
    (c : option DataFrame) :
  init_db (init_db (mkState d cached c)) = init_db (mkState d cached c)
  /\ db (init_db (mkState d false c)) = Some (default empty_table d)
  /\ db (init_db (mkState (Some t) cached c)) = Some t
  /\ db (init_db (mkState None false c)) = Some empty_table.
Proof.
  repeat split.
  - unfold init_db. destruct cached; simpl; reflexivity.
  - destruct d; reflexivity.
  - destruct cached; reflexivity.
Qed.

(** C1 (amended): [add_transaction] validates nothing.  On a store that
    has the relation, every call, whatever the amount and the type, writes
    exactly one row with the values given.  A non-positive amount or a type
    other than Income and Expense is kept out by the form only: when the
    widgets hold what their declarations allow (amount at least 0.01, type
    one of the two options), the row a submission writes has a positive
    amount and type Income or Expense. *)
Theorem add_transaction_unvalidated (s : State) (t : Table) (date : Z)
    (type category : string) (amount : Z) (description : option string)
    (w : Widgets) :
  db s = Some t ->
  serial_fresh t = true ->
  widgets_ok w = true ->
  submitted w = true ->
  add_transaction date type category amount description s
  = Ok (mkState
          (Some (mkTable
             (tbl_rows t
              ++ [mkRow (tbl_seq t) date type category amount description])
             (tbl_seq t + 1)))
          (init_db_cached s) None, PyNone)
  /\ exists r,
       transaction_form w s
       = Ok (mkState (Some (mkTable (tbl_rows t ++ [r]) (tbl_seq t + 1)))
               (init_db_cached s) None)
       /\ 0 < row_amount r
       /\ (row_type r = "Income" \/ row_type r = "Expense").
Proof.
  intros Hdb Hf Hw Hs. split.
  - unfold add_transaction. rewrite Hdb, (insert_fresh t _ _ _ _ _ Hf).
    reflexivity.
  - unfold transaction_form, add_transaction.
    rewrite Hs, Hdb, (insert_fresh t _ _ _ _ _ Hf).
    eexists. split; [reflexivity|]. simpl.
    unfold widgets_ok in Hw.
    apply andb_prop in Hw as [Hw Ha]. apply andb_prop in Hw as [Ht _].
    apply Z.leb_le in Ha. unfold min_value in Ha. split; [lia|].
    unfold mem, type_options in Ht. simpl in Ht.
    destruct (String.eqb_spec (type_input w) "Income") as [->|_]; [now left|].
    destruct (String.eqb_spec (type_input w) "Expense") as [->|_]; [now right|].
    discriminate.
Qed.

Lemma add_transaction_unvalidated_witness :
  (db Sample.one_coffee = Some (mkTable
      [mkRow 1 Sample.jan1 "Expense" "Food" 350 (Some "coffee")] 2)
   /\ serial_fresh (mkTable
      [mkRow 1 Sample.jan1 "Expense" "Food" 350 (Some "coffee")] 2) = true
   /\ widgets_ok Sample.food_form = true
   /\ submitted Sample.food_form = true)
  /\ add_transaction Sample.jan2 "Refund" "Other" (-500) None Sample.one_coffee
     = Ok (mkState
             (Some (mkTable
                [mkRow 1 Sample.jan1 "Expense" "Food" 350 (Some "coffee");
                 mkRow 2 Sample.jan2 "Refund" "Other" (-500) None] 3))
             true None, PyNone).
Proof.
  split; [repeat split|].
  exact (proj1 (add_transaction_unvalidated Sample.one_coffee
           (mkTable [mkRow 1 Sample.jan1 "Expense" "Food" 350 (Some "coffee")] 2)
           Sample.jan2 "Refund" "Other" (-500) None Sample.food_form
           eq_refl eq_refl eq_refl eq_refl)).
Defined.

(** C1 as stated fails: on an initialised store the calls with amount 0,
    with amount -5.00 and with a type outside the two options all return
    normally and leave one more row. *)
Lemma add_transaction_accepts_invalid :
  add_transaction Sample.jan1 "Income" "Salary" 0 None Sample.fresh
  = Ok (mkState (Some (mkTable
          [mkRow 1 Sample.jan1 "Income" "Salary" 0 None] 2)) true None,
        PyNone)
  /\ add_transaction Sample.jan1 "Expense" "Food" (-500) None Sample.fresh
  = Ok (mkState (Some (mkTable
          [mkRow 1 Sample.jan1 "Expense" "Food" (-500) None] 2)) true None,
        PyNone)
  /\ add_transaction Sample.jan1 "Refund" "Food" 500 None Sample.fresh
  = Ok (mkState (Some (mkTable
          [mkRow 1 Sample.jan1 "Refund" "Food" 500 None] 2)) true None,
        PyNone).
Proof. repeat split. Qed.

(** C2 (amended): [add_transaction] hands nothing back.  A call that the
    store accepts returns [None]; the id of the row it created is the next
    value of the table's sequence, which no stored row carries (so ids stay
    pairwise distinct), and it stays in the table only: the caller does not
    receive it. *)
Theorem add_transaction_returns_none (s : State) (t : Table) (date : Z)
    (type category : string) (amount : Z) (description : option string) :
  db s = Some t ->
  serial_fresh t = true ->
  NoDup (ids t) ->
  exists s' t',
    add_transaction date type category amount description s = Ok (s', PyNone)
    /\ db s' = Some t'
    /\ tbl_rows t'
       = (tbl_rows t
          ++ [mkRow (tbl_seq t) date type category amount description])%list
    /\ ~ In (tbl_seq t) (ids t)
    /\ NoDup (ids t')
    /\ serial_fresh t' = true.
Proof.
  intros Hdb Hf Hnd. unfold add_transaction.
  rewrite Hdb, (insert_fresh t _ _ _ _ _ Hf).
  eexists _, _. split; [reflexivity|]. split; [reflexivity|]. simpl.
  split; [reflexivity|].
  pose proof (fresh_not_stored t Hf) as Hnew.
  split; [exact Hnew|]. split.
  - unfold ids in *. simpl. rewrite map_app. simpl.
    apply NoDup_app. repeat split; auto.
    + intros i Hi [<-|[]]%list_elem_of_In. apply Hnew.
      now apply list_elem_of_In.
    + apply NoDup_singleton.
  - now apply insert_keeps_fresh.
Qed.

Lemma add_transaction_returns_none_witness :
  (db Sample.one_coffee = Some (mkTable
      [mkRow 1 Sample.jan1 "Expense" "Food" 350 (Some "coffee")] 2)
   /\ serial_fresh (mkTable
      [mkRow 1 Sample.jan1 "Expense" "Food" 350 (Some "coffee")] 2) = true
   /\ NoDup (ids (mkTable
      [mkRow 1 Sample.jan1 "Expense" "Food" 350 (Some "coffee")] 2)))
  /\ exists s' t',
       add_transaction Sample.jan2 "Income" "Salary" 100000 None
         Sample.one_coffee = Ok (s', PyNone)
       /\ db s' = Some t'
       /\ tbl_rows t'
          = [mkRow 1 Sample.jan1 "Expense" "Food" 350 (Some "coffee");
             mkRow 2 Sample.jan2 "Income" "Salary" 100000 None]
       /\ ~ In 2 [1]
       /\ NoDup (ids t')
       /\ serial_fresh t' = true.
Proof.
  split; [repeat split; apply NoDup_singleton|].
  apply (add_transaction_returns_none Sample.one_coffee
           (mkTable [mkRow 1 Sample.jan1 "Expense" "Food" 350 (Some "coffee")] 2)
           Sample.jan2 "Income" "Salary" 100000 None eq_refl eq_refl).
  apply NoDup_singleton.
Defined.

(** C2 as stated fails: a valid call (amount 1000.00, type Income) creates
    the row with id 1 and returns [None], which is not that id. *)
Lemma add_transaction_returns_no_id :
  add_transaction Sample.jan1 "Income" "Salary" 100000 None Sample.fresh
  = Ok (mkState (Some (mkTable
          [mkRow 1 Sample.jan1 "Income" "Salary" 100000 None] 2)) true None,
        PyNone)
  /\ PyNone <> PyInt 1.
Proof. split; [reflexivity|discriminate]. Qed.

Lemma stored_sorted_perm (t : Table) :
  Permutation
    (map Spec.as_transaction (order_by_date_desc (tbl_rows t)))
    (Spec.stored t).
Proof. unfold Spec.stored. apply Permutation_map, order_by_date_desc_perm. Qed.

(** C4: on a store that has the relation, [get_all_transactions] (the
    spec's list_all) returns every stored transaction, none left out and
    none added (the result is a rearrangement of the stored rows), ordered
    by date descending; nothing is said of the order within one date.  The
    cached frame, when there is one, is assumed to be the one read from the
    present table, which every insert of this process ensures by clearing
    the cache. *)
Theorem list_all_complete_sorted (s : State) (t : Table) :
  db s = Some t ->
  coherent s ->
  exists s' df,
    get_all_transactions s = Ok (s', df)
    /\ Permutation df (Spec.stored t)
    /\ StronglySorted Spec.date_desc df
    /\ db s' = db s.
Proof.
  intros Hdb Hc.
  destruct (get_all_transactions_reads s t Hdb Hc) as (s' & Hget & Hdb' & _).
  exists s', (map Spec.as_transaction (order_by_date_desc (tbl_rows t))).
  split; [exact Hget|]. split; [apply stored_sorted_perm|].
  split; [|exact Hdb'].
  apply as_transaction_sorted, order_by_date_desc_sorted.
Qed.

Lemma list_all_complete_sorted_witness :
  (db (mkState (Some Sample.three_rows) true None) = Some Sample.three_rows
   /\ coherent (mkState (Some Sample.three_rows) true None))
  /\ exists s' df,
       get_all_transactions (mkState (Some Sample.three_rows) true None)
       = Ok (s', df)
       /\ Permutation df (Spec.stored Sample.three_rows)
       /\ StronglySorted Spec.date_desc df
       /\ db s' = Some Sample.three_rows.
Proof.
  split; [split; [reflexivity|exact I]|].
  exact (list_all_complete_sorted (mkState (Some Sample.three_rows) true None)
           Sample.three_rows eq_refl I).
Defined.

(** Counted by value: the frame read after an insert holds the inserted
    values one more time than the table held them before.  The records of
    the frame carry no id, so a transaction equal to one stored earlier
    stands beside it as an equal record. *)
Lemma insert_then_list_all (s : State) (t : Table) (d : Z)
    (ty c : string) (a : Z) (desc : option string) :
  db s = Some t ->
  serial_fresh t = true ->
  exists s1 s2 df,
    add_transaction d ty c a desc s = Ok (s1, PyNone)
    /\ get_all_transactions s1 = Ok (s2, df)
    /\ In (mkTransaction (to_datetime d) ty c a desc) df
    /\ count_occ Transaction_eq_dec df (mkTransaction (to_datetime d) ty c a desc)
       = S (count_occ Transaction_eq_dec (Spec.stored t)
              (mkTransaction (to_datetime d) ty c a desc))
    /\ (count_occ Transaction_eq_dec (Spec.stored t)
          (mkTransaction (to_datetime d) ty c a desc) = 0%nat ->
        count_occ Transaction_eq_dec df
          (mkTransaction (to_datetime d) ty c a desc) = 1%nat)
    /\ dt_date (to_datetime d) = d.
Proof.
  intros Hdb Hf.
  set (rec := mkTransaction (to_datetime d) ty c a desc).
  set (t' := mkTable (tbl_rows t ++ [mkRow (tbl_seq t) d ty c a desc])
               (tbl_seq t + 1)).
  exists (mkState (Some t') (init_db_cached s) None).
  destruct (get_all_transactions_reads
              (mkState (Some t') (init_db_cached s) None) t' eq_refl I)
    as (s2 & Hget & _ & _).
  exists s2, (map Spec.as_transaction (order_by_date_desc (tbl_rows t'))).
  split.
  { unfold add_transaction. rewrite Hdb, (insert_fresh t _ _ _ _ _ Hf).
    reflexivity. }
  split; [exact Hget|].
  assert (Permutation
            (map Spec.as_transaction (order_by_date_desc (tbl_rows t')))
            (Spec.stored t ++ [rec])) as Hperm.
  { rewrite stored_sorted_perm. unfold Spec.stored, t'. simpl.
    rewrite map_app. reflexivity. }
  assert (count_occ Transaction_eq_dec
            (map Spec.as_transaction (order_by_date_desc (tbl_rows t'))) rec
          = S (count_occ Transaction_eq_dec (Spec.stored t) rec)) as Hcount.
  { rewrite (proj1 (Permutation_count_occ Transaction_eq_dec _ _) Hperm rec).
    rewrite count_occ_app, (count_occ_cons_eq Transaction_eq_dec [] eq_refl).
    cbn [count_occ]. lia. }
  split.
  { apply (count_occ_In Transaction_eq_dec). rewrite Hcount. lia. }
  split; [exact Hcount|].
  split; [|reflexivity].
  intros H0. rewrite Hcount, H0. reflexivity.
Qed.

(** Two equal transactions are two rows: the same coffee entered a
    second time is listed beside the first, each record coming from its
    own row. *)
Lemma insert_twice_listed_twice :
  exists s1 s2 df,
    add_transaction Sample.jan1 "Expense" "Food" 350 (Some "coffee")
      Sample.one_coffee = Ok (s1, PyNone)
    /\ get_all_transactions s1 = Ok (s2, df)
    /\ df = [mkTransaction (to_datetime Sample.jan1) "Expense" "Food" 350
               (Some "coffee");
             mkTransaction (to_datetime Sample.jan1) "Expense" "Food" 350
               (Some "coffee")]
    /\ count_occ Transaction_eq_dec df
         (mkTransaction (to_datetime Sample.jan1) "Expense" "Food" 350
            (Some "coffee")) = 2%nat.
Proof.
  eexists _, _, _. split; [reflexivity|]. split; [reflexivity|].
  split; [reflexivity|]. vm_compute. reflexivity.
Qed.

Lemma filter_perm {A : Type} (p : A -> bool) (l l' : list A) :
  Permutation l l' -> Permutation (List.filter p l) (List.filter p l').
Proof.
  induction 1 as [|x l1 l2 _ IH|x y l1|l1 l2 l3 _ IH1 _ IH2];
    cbn [List.filter].
  - constructor.
  - destruct (p x); [now constructor|exact IH].
  - destruct (p x), (p y); try reflexivity. apply perm_swap.
  - now transitivity (List.filter p l2).
Qed.

Lemma fresh_id_unused (t : Table) :
  serial_fresh t = true ->
  List.filter (fun r => row_id r =? tbl_seq t) (tbl_rows t) = [].
Proof.
  unfold serial_fresh, ids. intros Hf. rewrite forallb_forall in Hf.
  induction (tbl_rows t) as [|r rows IH]; [reflexivity|].
  cbn [List.filter].
  assert ((row_id r <? tbl_seq t) = true) as Hr by (apply Hf; now left).
  apply Z.ltb_lt in Hr.
  destruct (Z.eqb_spec (row_id r) (tbl_seq t)) as [Heq|_]; [lia|].
  apply IH. intros i Hi. apply Hf. now right.
Qed.

(** C3: on a store that has the relation, [add_transaction] followed at
    once by [get_all_transactions] reads the table again (the insert
    cleared the cache, whatever it held), and the rows the result lists
    are the rows stored before together with the inserted one.  The
    inserted row, the one that carries the id just assigned, is listed
    exactly once, and its record in the result has the date, type,
    category, amount and description that were passed in, the date as
    midnight of its day. *)
Theorem inserted_row_listed_once (s : State) (t : Table) (d : Z)
    (ty c : string) (a : Z) (desc : option string) :
  db s = Some t ->
  serial_fresh t = true ->
  exists s1 s2 df listed,
    add_transaction d ty c a desc s = Ok (s1, PyNone)
    /\ get_all_transactions s1 = Ok (s2, df)
    /\ df = map Spec.as_transaction listed
    /\ Permutation listed (tbl_rows t ++ [mkRow (tbl_seq t) d ty c a desc])
    /\ List.filter (fun r => row_id r =? tbl_seq t) listed
       = [mkRow (tbl_seq t) d ty c a desc]
    /\ Spec.as_transaction (mkRow (tbl_seq t) d ty c a desc)
       = mkTransaction (to_datetime d) ty c a desc
    /\ In (mkTransaction (to_datetime d) ty c a desc) df
    /\ dt_date (to_datetime d) = d.
Proof.
  intros Hdb Hf.
  set (new := mkRow (tbl_seq t) d ty c a desc).
  set (t' := mkTable (tbl_rows t ++ [new]) (tbl_seq t + 1)).
  destruct (get_all_transactions_reads
              (mkState (Some t') (init_db_cached s) None) t' eq_refl I)
    as (s2 & Hget & _ & _).
  exists (mkState (Some t') (init_db_cached s) None), s2.
  exists (map Spec.as_transaction (order_by_date_desc (tbl_rows t'))).
  exists (order_by_date_desc (tbl_rows t')).
  pose proof (order_by_date_desc_perm (tbl_rows t')) as Hperm.
  split.
  { unfold add_transaction. rewrite Hdb, (insert_fresh t _ _ _ _ _ Hf).
    reflexivity. }
  split; [exact Hget|]. split; [reflexivity|]. split; [exact Hperm|].
  split.
  { apply Permutation_length_1_inv. symmetry.
    rewrite (filter_perm (fun r => row_id r =? tbl_seq t) _ _ Hperm).
    cbn [t' tbl_rows]. rewrite List.filter_app, (fresh_id_unused t Hf).
    cbn [List.filter app new row_id]. now rewrite Z.eqb_refl. }
  split; [reflexivity|]. split; [|reflexivity].
  change (mkTransaction (to_datetime d) ty c a desc)
    with (Spec.as_transaction new).
  apply in_map. apply (Permutation_in _ (Permutation_sym Hperm)).
  cbn [t' tbl_rows]. apply in_or_app. right. now left.
Qed.

Lemma inserted_row_listed_once_witness :
  (db Sample.one_coffee = Some (mkTable
      [mkRow 1 Sample.jan1 "Expense" "Food" 350 (Some "coffee")] 2)
   /\ serial_fresh (mkTable
      [mkRow 1 Sample.jan1 "Expense" "Food" 350 (Some "coffee")] 2) = true)
  /\ exists s1 s2 df listed,
       add_transaction Sample.jan1 "Expense" "Food" 350 (Some "coffee")
         Sample.one_coffee = Ok (s1, PyNone)
       /\ get_all_transactions s1 = Ok (s2, df)
       /\ df = map Spec.as_transaction listed
       /\ Permutation listed
            ([mkRow 1 Sample.jan1 "Expense" "Food" 350 (Some "coffee")]
             ++ [mkRow 2 Sample.jan1 "Expense" "Food" 350 (Some "coffee")])
       /\ List.filter (fun r => row_id r =? 2) listed
          = [mkRow 2 Sample.jan1 "Expense" "Food" 350 (Some "coffee")]
       /\ Spec.as_transaction
            (mkRow 2 Sample.jan1 "Expense" "Food" 350 (Some "coffee"))
          = mkTransaction (to_datetime Sample.jan1) "Expense" "Food" 350
              (Some "coffee")
       /\ In (mkTransaction (to_datetime Sample.jan1) "Expense" "Food" 350
                (Some "coffee")) df
       /\ dt_date (to_datetime Sample.jan1) = Sample.jan1.
Proof.
  split; [split; reflexivity|].
  exact (inserted_row_listed_once Sample.one_coffee
           (mkTable [mkRow 1 Sample.jan1 "Expense" "Food" 350 (Some "coffee")] 2)
           Sample.jan1 "Expense" "Food" 350 (Some "coffee") eq_refl eq_refl).
Defined.

(** C10: the records [get_all_transactions] returns are made of the five
    columns date, type, category, amount and description of the stored
    rows and of nothing else: each is built from those columns of some
    stored row, and two stores whose rows agree on the five columns, under
    whatever ids, are read back as the same frame. *)
Theorem list_all_omits_id (s1 s2 : State) (t1 t2 : Table) :
  db s1 = Some t1 ->
  db s2 = Some t2 ->
  coherent s1 ->
  coherent s2 ->
  map select_columns (tbl_rows t1) = map select_columns (tbl_rows t2) ->
  exists s1' s2' df,
    get_all_transactions s1 = Ok (s1', df)
    /\ get_all_transactions s2 = Ok (s2', df)
    /\ Forall (fun x => exists r,
                 In r (tbl_rows t1)
                 /\ x = mkTransaction (to_datetime (row_date r)) (row_type r)
                          (row_category r) (row_amount r) (row_description r))
              df.
Proof.
  intros Hdb1 Hdb2 Hc1 Hc2 Hsel.
  destruct (get_all_transactions_reads s1 t1 Hdb1 Hc1) as (s1' & Hget1 & _).
  destruct (get_all_transactions_reads s2 t2 Hdb2 Hc2) as (s2' & Hget2 & _).
  exists s1', s2', (map Spec.as_transaction (order_by_date_desc (tbl_rows t1))).
  split; [exact Hget1|]. split.
  - rewrite Hget2. do 2 f_equal.
    rewrite <- !frame_of_select. f_equal.
    symmetry. now apply select_columns_order_by.
  - rewrite Forall_map, Forall_forall. intros r Hr. exists r. split; [|reflexivity].
    apply (Permutation_in _ (order_by_date_desc_perm (tbl_rows t1))).
    now apply list_elem_of_In.
Qed.

Lemma list_all_omits_id_witness :
  (db (mkState (Some Sample.three_rows) true None) = Some Sample.three_rows
   /\ db (mkState (Some Sample.three_rows_renumbered) true None)
      = Some Sample.three_rows_renumbered
   /\ coherent (mkState (Some Sample.three_rows) true None)
   /\ coherent (mkState (Some Sample.three_rows_renumbered) true None)
   /\ map select_columns (tbl_rows Sample.three_rows)
      = map select_columns (tbl_rows Sample.three_rows_renumbered))
  /\ exists s1' s2' df,
       get_all_transactions (mkState (Some Sample.three_rows) true None)
       = Ok (s1', df)
       /\ get_all_transactions
            (mkState (Some Sample.three_rows_renumbered) true None)
          = Ok (s2', df)
       /\ Forall (fun x => exists r,
                    In r (tbl_rows Sample.three_rows)
                    /\ x = mkTransaction (to_datetime (row_date r)) (row_type r)
                             (row_category r) (row_amount r)
                             (row_description r))
                 df.
Proof.
  split; [repeat split|].
  exact (list_all_omits_id (mkState (Some Sample.three_rows) true None)
           (mkState (Some Sample.three_rows_renumbered) true None)
           Sample.three_rows Sample.three_rows_renumbered
           eq_refl eq_refl I I eq_refl).
Defined.

End AppFacts.

(** ** Data frames *)

Section FrameFacts.
Import Frame.

Lemma fold_add_shift (xs : list Z) (a : Z) :
  fold_left Z.add xs a = a + fold_left Z.add xs 0.
Proof.
  revert a. induction xs as [|x xs IH]; intros a; cbn [fold_left]; [lia|].
  rewrite (IH (a + x)), (IH (0 + x)). lia.
Qed.

Lemma sum_cons (x : Z) (xs : list Z) : sum (x :: xs) = x + sum xs.
Proof. unfold sum. simpl. apply fold_add_shift. Qed.

Lemma total_where (t : string) (df : DataFrame) :
  sum (amounts (where_type t df)) = Spec.total df t.
Proof.
  induction df as [|r df IH]; [reflexivity|].
  unfold where_type, amounts in *. simpl.
  destruct (String.eqb (type r) t); [|exact IH].
  cbn [map]. rewrite sum_cons, IH. reflexivity.
Qed.

Lemma where_type_none (t : string) (df : DataFrame) :
  Forall (fun r => type r <> t) df -> where_type t df = [].
Proof.
  induction 1 as [|r df Hr _ IH]; [reflexivity|].
  unfold where_type in *. simpl.
  destruct (String.eqb_spec (type r) t); [contradiction|exact IH].
Qed.

End FrameFacts.

(** ** The summary figures *)

Section PageFacts.
Import Frame Page.

(** C5: for every list of transactions, the empty one included, the net
    value the page computes is the total over the Income transactions
    minus the total over the Expense transactions; whenever the page shows
    a summary, the three figures shown are these. *)
Theorem net_is_income_minus_expenses (df : DataFrame) :
  net_savings df = Spec.total df "Income" - Spec.total df "Expense"
  /\ net_savings df = Spec.net df
  /\ match render df with
     | NoTransactions => df = []
     | Dashboard income expenses net _ _ =>
         income = Spec.total df "Income"
         /\ expenses = Spec.total df "Expense"
         /\ net = income - expenses
     end.
Proof.
  assert (net_savings df = Spec.total df "Income" - Spec.total df "Expense")
    as Hnet.
  { unfold net_savings, total_income, total_expenses.
    now rewrite !total_where. }
  split; [exact Hnet|]. split; [exact Hnet|].
  unfold render. destruct df as [|r df]; [reflexivity|]. cbn [empty].
  split; [apply total_where|]. split; [apply total_where|]. reflexivity.
Qed.

(** C6: each total is the sum of [amount] over exactly the transactions
    of its type, and is 0 when no transaction has that type; on the empty
    list both totals and the net are 0, and the page raises nothing there
    (it shows the "no transactions" notice). *)
Theorem totals_sum_matching (df : DataFrame) :
  total_income df = Spec.total df "Income"
  /\ total_expenses df = Spec.total df "Expense"
  /\ (Forall (fun r => type r <> "Income") df -> total_income df = 0)
  /\ (Forall (fun r => type r <> "Expense") df -> total_expenses df = 0)
  /\ total_income [] = 0
  /\ total_expenses [] = 0
  /\ net_savings [] = 0
  /\ render [] = NoTransactions.
Proof.
  unfold total_income, total_expenses.
  repeat split; try reflexivity; try apply total_where.
  - intros Hno. now rewrite (where_type_none _ _ Hno).
  - intros Hno. now rewrite (where_type_none _ _ Hno).
Qed.

End PageFacts.

(** ** Grouping *)

Section Accumulate.
Import Frame.
Context {K : Type} `{Countable K} (key : Transaction -> K).

Lemma key_total_absent (k : K) (l : DataFrame) :
  k ∉ key <$> l -> Spec.key_total key k l = 0.
Proof.
  induction l as [|r l IH]; intros Hk; [reflexivity|].
  cbn [Spec.key_total]. rewrite fmap_cons, not_elem_of_cons in Hk.
  destruct Hk as [Hne Hk].
  rewrite decide_False by congruence. auto.
Qed.

Lemma accumulate_lookup (l : DataFrame) (m : gmap K Z) (k : K) :
  Spec.accumulate key l m !! k
  = if decide (k ∈ key <$> l)
    then Some (default 0 (m !! k) + Spec.key_total key k l)
    else m !! k.
Proof.
  revert m. induction l as [|r l IH]; intros m.
  - rewrite decide_False by apply not_elem_of_nil. reflexivity.
  - unfold Spec.accumulate. cbn [fold_left].
    fold (Spec.accumulate key l
            (<[key r := default 0 (m !! key r) + amount r]> m)).
    rewrite IH. cbn [Spec.key_total]. rewrite fmap_cons.
    destruct (decide (key r = k)) as [<-|Hne].
    + rewrite lookup_insert_eq.
      rewrite (decide_True (P := key r ∈ key r :: (key <$> l)))
        by apply list_elem_of_here.
      cbn [from_option id]. destruct (decide (key r ∈ key <$> l)) as [_|Hout].
      * f_equal. lia.
      * rewrite (key_total_absent _ _ Hout). f_equal. lia.
    + rewrite lookup_insert_ne by exact Hne.
      destruct (decide (k ∈ key <$> l)) as [Hin|Hout].
      * rewrite decide_True by now apply list_elem_of_further.
        reflexivity.
      * rewrite decide_False; [reflexivity|].
        rewrite not_elem_of_cons. split; [congruence|exact Hout].
Qed.

End Accumulate.

Section GroupFacts.
Import Frame Page.

Lemma add_to_group_keys (k v : Z) (g : list (Z * Z)) (x : Z) :
  x ∈ (add_to_group k v g).*1 <-> x = k \/ x ∈ g.*1.
Proof.
  induction g as [|[k' v'] g IH]; cbn [add_to_group].
  - rewrite !fmap_cons, elem_of_cons. reflexivity.
  - destruct (Z.ltb_spec k k') as [Hlt|Hge].
    + rewrite (fmap_cons fst (k, v)), elem_of_cons. reflexivity.
    + destruct (Z.eqb_spec k k') as [->|Hne].
      * rewrite !fmap_cons, !elem_of_cons. cbn [fst]. tauto.
      * rewrite !fmap_cons, !elem_of_cons, IH. cbn [fst]. tauto.
Qed.

Lemma add_to_group_ascending (k v : Z) (g : list (Z * Z)) :
  Spec.ascending g -> Spec.ascending (add_to_group k v g).
Proof.
  unfold Spec.ascending. change (map fst) with (fmap (M := list) (@fst Z Z)).
  induction g as [|[k' v'] g IH]; cbn [add_to_group]; intros Hs.
  - repeat constructor.
  - rewrite fmap_cons in Hs. cbn [fst] in Hs.
    apply StronglySorted_inv in Hs as [Hs Hk'].
    destruct (Z.ltb_spec k k') as [Hlt|Hge].
    + rewrite !fmap_cons. cbn [fst].
      constructor; [now constructor|].
      constructor; [exact Hlt|].
      eapply Forall_impl; [exact Hk'|]. intros; lia.
    + destruct (Z.eqb_spec k k') as [->|Hne].
      * rewrite fmap_cons. cbn [fst]. now constructor.
      * rewrite fmap_cons. cbn [fst]. constructor; [now apply IH|].
        rewrite Forall_forall. intros x [->|Hx]%add_to_group_keys; [lia|].
        rewrite Forall_forall in Hk'. now apply Hk'.
Qed.

Lemma ascending_NoDup (g : list (Z * Z)) : Spec.ascending g -> NoDup (g.*1).
Proof.
  unfold Spec.ascending. change (map fst) with (fmap (M := list) (@fst Z Z)).
  induction 1 as [|x l Hs IH Hx]; constructor; [|exact IH].
  intros Hin. rewrite Forall_forall in Hx. specialize (Hx _ Hin). lia.
Qed.

Lemma add_to_group_map (k v : Z) (g : list (Z * Z)) :
  Spec.ascending g ->
  (list_to_map (add_to_group k v g) : gmap Z Z)
  = <[k := default 0 ((list_to_map g : gmap Z Z) !! k) + v]> (list_to_map g).
Proof.
  unfold Spec.ascending. change (map fst) with (fmap (M := list) (@fst Z Z)).
  induction g as [|[k' v'] g IH]; cbn [add_to_group]; intros Hs.
  - reflexivity.
  - rewrite fmap_cons in Hs. cbn [fst] in Hs.
    apply StronglySorted_inv in Hs as [Hs Hk'].
    destruct (Z.ltb_spec k k') as [Hlt|Hge].
    + rewrite (list_to_map_cons ((k', v') :: g)).
      rewrite (list_to_map_cons g), lookup_insert_ne by lia.
      assert ((list_to_map g : gmap Z Z) !! k = None) as ->.
      { apply not_elem_of_list_to_map. intros Hin.
        rewrite Forall_forall in Hk'. specialize (Hk' _ Hin). lia. }
      reflexivity.
    + destruct (Z.eqb_spec k k') as [->|Hne].
      * rewrite !list_to_map_cons, lookup_insert_eq, insert_insert_eq.
        reflexivity.
      * rewrite !list_to_map_cons, (IH Hs), lookup_insert_ne by congruence.
        apply insert_insert_ne. congruence.
Qed.

Lemma groupby_fold (l : DataFrame) (g : list (Z * Z)) :
  Spec.ascending g ->
  Spec.ascending
    (fold_left (fun g r => add_to_group (dt_date (date r)) (amount r) g) l g)
  /\ (list_to_map
        (fold_left (fun g r => add_to_group (dt_date (date r)) (amount r) g)
           l g) : gmap Z Z)
     = Spec.accumulate Spec.day l (list_to_map g).
Proof.
  revert g. induction l as [|r l IH]; intros g Hg; [now split|].
  cbn [fold_left]. unfold Spec.accumulate. cbn [fold_left].
  destruct (IH _ (add_to_group_ascending (dt_date (date r)) (amount r) g Hg))
    as [Hs Hm].
  split; [exact Hs|].
  rewrite Hm, (add_to_group_map _ _ _ Hg). reflexivity.
Qed.

Lemma key_total_expenses_on (d : Z) (df : DataFrame) :
  Spec.key_total Spec.day d (where_type "Expense" df) = Spec.expenses_on d df.
Proof.
  induction df as [|r df IH]; [reflexivity|].
  unfold where_type in *. cbn [List.filter Spec.expenses_on].
  unfold Spec.is_expense.
  destruct (String.eqb (type r) "Expense"); cbn [andb]; [|exact IH].
  cbn [Spec.key_total]. unfold Spec.day at 1.
  destruct (Z.eqb_spec (dt_date (date r)) d) as [Heq|Hne].
  - rewrite decide_True by exact Heq. now rewrite IH.
  - rewrite decide_False by exact Hne. exact IH.
Qed.

Lemma expense_keys {K : Type} (key : Transaction -> K) (k : K)
    (df : DataFrame) :
  k ∈ key <$> where_type "Expense" df
  <-> exists r, In r df /\ type r = "Expense" /\ key r = k.
Proof.
  rewrite list_elem_of_fmap. unfold where_type. split.
  - intros (r & -> & Hr). apply list_elem_of_In, filter_In in Hr as [Hr Ht].
    apply String.eqb_eq in Ht. eauto.
  - intros (r & Hr & Ht & <-). exists r. split; [reflexivity|].
    apply list_elem_of_In, filter_In. split; [exact Hr|].
    now apply String.eqb_eq.
Qed.

Lemma expenses_by_day_lookup (df : DataFrame) (d : Z) :
  (list_to_map (expenses_by_day df) : gmap Z Z) !! d
  = if decide (d ∈ Spec.day <$> expenses_df df)
    then Some (Spec.expenses_on d df)
    else None.
Proof.
  unfold expenses_by_day, groupby_date_sum.
  destruct (groupby_fold (expenses_df df) [] (SSorted_nil _)) as [_ ->].
  rewrite accumulate_lookup. cbn [list_to_map foldr]. rewrite lookup_empty.
  unfold expenses_df. rewrite key_total_expenses_on. reflexivity.
Qed.

(** C7: for every list of transactions, [expenses_by_day] has its dates
    in strictly ascending order, hence one entry per date; the dates are
    exactly the calendar dates of the Expense transactions; and the value
    at each date is the sum of [amount] over the Expense transactions of
    that date.  Expenses of 10.00 on 2024-01-02 and 5.00 on 2024-01-01 give
    [(2024-01-01, 5.00); (2024-01-02, 10.00)]. *)
Theorem expenses_by_day_grouped (df : DataFrame) (d v : Z) :
  Spec.ascending (expenses_by_day df)
  /\ NoDup (map fst (expenses_by_day df))
  /\ (In d (map fst (expenses_by_day df)) <-> Spec.expense_date d df)
  /\ (In (d, v) (expenses_by_day df)
      <-> Spec.expense_date d df /\ v = Spec.expenses_on d df)
  /\ expenses_by_day Sample.two_days
     = [(Sample.jan1, 500); (Sample.jan2, 1000)].
Proof.
  assert (Spec.ascending (expenses_by_day df)) as Hasc.
  { unfold expenses_by_day, groupby_date_sum.
    apply (groupby_fold (expenses_df df) [] (SSorted_nil _)). }
  pose proof (ascending_NoDup _ Hasc) as Hnd.
  assert (forall x, x ∈ Spec.day <$> expenses_df df <-> Spec.expense_date x df)
    as Hkeys by (intros x; apply expense_keys).
  split; [exact Hasc|]. split; [exact Hnd|]. split; [|split].
  - rewrite <- Hkeys, <- list_elem_of_In.
    change (map fst (expenses_by_day df)) with ((expenses_by_day df).*1).
    split.
    + intros Hin. destruct (decide (d ∈ Spec.day <$> expenses_df df)) as [|Hout];
        [assumption|].
      apply not_elem_of_list_to_map_2 in Hin; [contradiction|].
      rewrite expenses_by_day_lookup. now rewrite decide_False.
    + intros Hin.
      destruct (decide (d ∈ (expenses_by_day df).*1)) as [|Hout]; [assumption|].
      apply (not_elem_of_list_to_map_1 (M := gmap Z)) in Hout.
      rewrite expenses_by_day_lookup, decide_True in Hout by exact Hin.
      discriminate.
  - rewrite <- Hkeys, <- list_elem_of_In.
    rewrite (elem_of_list_to_map (M := gmap Z) _ _ _ Hnd).
    rewrite expenses_by_day_lookup.
    destruct (decide (d ∈ Spec.day <$> expenses_df df)) as [Hin|Hout].
    + split; [intros [= <-]; auto|intros [_ ->]; reflexivity].
    + split; [discriminate|intros [? _]; contradiction].
  - reflexivity.
Qed.





End GroupFacts.

(** ** The cache stays in step with the table *)

Section Coherence.
Import Store Frame App.

Lemma start_coherent (d : Database) : coherent (start d).
Proof. exact I. Qed.

Lemma init_db_coherent (s : State) : coherent s -> coherent (init_db s).
Proof.
  unfold init_db, coherent. destruct (init_db_cached s); [auto|]. simpl.
  destruct (transactions_cached s) as [df|]; [|auto].
  destruct (db s); [auto|discriminate].
Qed.

Lemma add_transaction_coherent (s s' : State) (r : pyret) d ty c a desc :
  add_transaction d ty c a desc s = Ok (s', r) -> coherent s'.
Proof.
  unfold add_transaction.
  destruct (insert d ty c a desc (db s)); [|discriminate].
  intros [= <- _]. exact I.
Qed.

Lemma get_all_transactions_coherent (s s' : State) (df : DataFrame) :
  coherent s ->
  get_all_transactions s = Ok (s', df) ->
  coherent s' /\ read_transactions (db s') = Ok df.
Proof.
  unfold get_all_transactions, coherent.
  destruct (transactions_cached s) as [df0|] eqn:Hc.
  - intros Hco [= <- <-]. rewrite Hc. auto.
  - intros _. destruct (read_transactions (db s)) as [df1|] eqn:Hr;
      [|discriminate].
    intros [= <- <-]. simpl. auto.
Qed.

(** X6: a run started with a cache that is empty or holds the frame of
    the present table ends with a cache that holds the frame of the table
    as the run left it: the page never lags behind a row this process
    wrote. *)
Lemma script_coherent (w : Widgets) (s s' : State) (v : Page.View) :
  coherent s -> script w s = Ok (s', v) -> coherent s'.
Proof.
  intros Hco. unfold script, transaction_form.
  apply init_db_coherent in Hco.
  destruct (submitted w).
  - destruct (add_transaction _ _ _ _ _ (init_db s)) as [[s1 r]|] eqn:Ha;
      [|discriminate].
    apply add_transaction_coherent in Ha.
    destruct (get_all_transactions s1) as [[s2 df]|] eqn:Hg; [|discriminate].
    intros [= <- _]. now apply (get_all_transactions_coherent s1 s2 df).
  - destruct (get_all_transactions (init_db s)) as [[s2 df]|] eqn:Hg;
      [|discriminate].
    intros [= <- _].
    now apply (get_all_transactions_coherent (init_db s) s2 df).
Qed.

End Coherence.

(** ** Runs of the script *)

Section ScriptFacts.
Import Store Frame App.

Lemma init_db_marks (s : State) : init_db_cached (init_db s) = true.
Proof. unfold init_db. destruct (init_db_cached s) eqn:Hc; [exact Hc|reflexivity]. Qed.

Lemma init_db_keeps_cache (s : State) :
  transactions_cached (init_db s) = transactions_cached s.
Proof. unfold init_db. destruct (init_db_cached s); reflexivity. Qed.

Lemma init_db_again (s : State) : init_db_cached s = true -> init_db s = s.
Proof. unfold init_db. now intros ->. Qed.

Lemma after_form_fresh (w : Widgets) (t : Table) :
  serial_fresh t = true -> serial_fresh (Spec.after_form w t) = true.
Proof.
  intros Hf. unfold Spec.after_form. destruct (submitted w); [|exact Hf].
  now apply insert_keeps_fresh.
Qed.

(** What a run does on a store that has the relation once [init_db] has
    been called. *)
Lemma script_run (w : Widgets) (s : State) (t : Table) :
  db (init_db s) = Some t ->
  serial_fresh t = true ->
  exists df,
    script w s
    = Ok (mkState (Some (Spec.after_form w t)) true (Some df), Page.render df)
    /\ (submitted w = true \/ transactions_cached s = None ->
        df = map Spec.as_transaction
               (order_by_date_desc (tbl_rows (Spec.after_form w t)))).
Proof.
  intros Hdb Hf. unfold script, transaction_form, Spec.after_form.
  destruct (submitted w).
  - unfold add_transaction. rewrite Hdb, (insert_fresh t _ _ _ _ _ Hf).
    unfold get_all_transactions. cbn [transactions_cached db init_db_cached].
    rewrite read_transactions_table, init_db_marks.
    eexists. split; [reflexivity|]. intros _. reflexivity.
  - unfold get_all_transactions.
    rewrite init_db_keeps_cache, Hdb, init_db_marks, read_transactions_table.
    destruct (transactions_cached s) as [df|] eqn:Hc.
    + exists df. split.
      * do 2 f_equal. pose proof (init_db_marks s) as Hm.
        pose proof (init_db_keeps_cache s) as Hk.
        destruct (init_db s) as [d b c]. simpl in *. congruence.
      * intros [|]; discriminate.
    + eexists. split; [reflexivity|]. intros _. reflexivity.
Qed.

Lemma script_leaves (w : Widgets) (s s' : State) (v : Page.View) :
  script w s = Ok (s', v) ->
  init_db_cached s' = true
  /\ exists df, transactions_cached s' = Some df /\ v = Page.render df.
Proof.
  unfold script, transaction_form, add_transaction, get_all_transactions.
  pose proof (init_db_marks s) as Hm.
  destruct (submitted w).
  - destruct (insert _ _ _ _ _ (db (init_db s))) as [d|]; [|discriminate].
    cbn [transactions_cached db init_db_cached].
    destruct (read_transactions d) as [df|]; [|discriminate].
    intros [= <- <-]. cbn. eauto.
  - destruct (transactions_cached (init_db s)) as [df|] eqn:Hc.
    + intros [= <- <-]. eauto.
    + destruct (read_transactions (db (init_db s))) as [df|]; [|discriminate].
      intros [= <- <-]. cbn. eauto.
Qed.

(** X1: a run on a store that has the relation always returns a page, and it
    only ever appends: the stored rows are kept as they are, in place, and
    followed by the row of the form when it was submitted and by nothing
    otherwise; ids stay below the sequence. *)
Theorem script_appends_only (w : Widgets) (s : State) (t : Table) :
  db (init_db s) = Some t ->
  serial_fresh t = true ->
  exists s' v t',
    script w s = Ok (s', v)
    /\ db s' = Some t'
    /\ tbl_rows t'
       = (tbl_rows t
          ++ (if submitted w then [Spec.form_row (tbl_seq t) w] else []))%list
    /\ serial_fresh t' = true.
Proof.
  intros Hdb Hf. destruct (script_run w s t Hdb Hf) as (df & Hrun & _).
  eexists _, _, _. split; [exact Hrun|]. split; [reflexivity|].
  split; [|now apply after_form_fresh].
  unfold Spec.after_form. destruct (submitted w); [reflexivity|].
  now rewrite app_nil_r.
Qed.

Lemma script_appends_only_witness :
  (db (init_db Sample.one_coffee)
   = Some (mkTable
       [mkRow 1 Sample.jan1 "Expense" "Food" 350 (Some "coffee")] 2)
   /\ serial_fresh (mkTable
       [mkRow 1 Sample.jan1 "Expense" "Food" 350 (Some "coffee")] 2) = true)
  /\ exists s' v t',
       script Sample.food_form Sample.one_coffee = Ok (s', v)
       /\ db s' = Some t'
       /\ tbl_rows t'
          = [mkRow 1 Sample.jan1 "Expense" "Food" 350 (Some "coffee");
             mkRow 2 Sample.jan2 "Expense" "Food" 1250 (Some "groceries")]
       /\ serial_fresh t' = true.
Proof.
  split; [split; reflexivity|].
  exact (script_appends_only Sample.food_form Sample.one_coffee
           (mkTable [mkRow 1 Sample.jan1 "Expense" "Food" 350 (Some "coffee")] 2)
           eq_refl eq_refl).
Defined.

(** X2: after a run in which the form was submitted, the page is the
    dashboard, never the "no transactions" notice, and the history it
    shows is every transaction stored before together with the submitted
    one. *)
Theorem script_shows_submission (w : Widgets) (s : State) (t : Table) :
  db (init_db s) = Some t ->
  serial_fresh t = true ->
  submitted w = true ->
  exists s' income expenses net charts history,
    script w s = Ok (s', Page.Dashboard income expenses net charts history)
    /\ In (Spec.as_transaction (Spec.form_row (tbl_seq t) w)) history
    /\ Permutation history
         (Spec.stored t ++ [Spec.as_transaction (Spec.form_row (tbl_seq t) w)]).
Proof.
  intros Hdb Hf Hs. destruct (script_run w s t Hdb Hf) as (df & Hrun & Hdf).
  specialize (Hdf (or_introl Hs)).
  unfold Spec.after_form in *. rewrite Hs in *. cbn [tbl_rows] in Hdf.
  assert (Permutation df
            (Spec.stored t ++ [Spec.as_transaction (Spec.form_row (tbl_seq t) w)]))
    as Hperm.
  { rewrite Hdf. unfold Spec.stored.
    rewrite (Permutation_map _ (order_by_date_desc_perm _)), map_app.
    reflexivity. }
  destruct df as [|r df].
  { apply Permutation_nil in Hperm. now destruct (Spec.stored t). }
  eexists _, _, _, _, _, _. split; [exact Hrun|]. split; [|exact Hperm].
  apply (Permutation_in _ (Permutation_sym Hperm)).
  apply in_or_app. right. now left.
Qed.

Lemma script_shows_submission_witness :
  (db (init_db (start None)) = Some empty_table
   /\ serial_fresh empty_table = true
   /\ submitted Sample.salary_form = true)
  /\ exists s' income expenses net charts history,
       script Sample.salary_form (start None)
       = Ok (s', Page.Dashboard income expenses net charts history)
       /\ In (Spec.as_transaction (Spec.form_row 1 Sample.salary_form)) history
       /\ Permutation history
            ([] ++ [Spec.as_transaction (Spec.form_row 1 Sample.salary_form)]).
Proof.
  split; [repeat split|].
  exact (script_shows_submission Sample.salary_form (start None) empty_table
           eq_refl eq_refl eq_refl).
Defined.

(** X3: a run that follows a successful run and in which nothing is submitted
    changes nothing and shows the same page again: [init_db] and the read
    are both answered from the caches. *)
Theorem script_rerun_noop (w w' : Widgets) (s s' : State) (v : Page.View) :
  script w s = Ok (s', v) ->
  submitted w' = false ->
  script w' s' = Ok (s', v).
Proof.
  intros Hrun Hs. apply script_leaves in Hrun as (Hm & df & Hc & ->).
  unfold script, transaction_form, get_all_transactions.
  rewrite Hs, (init_db_again s' Hm), Hc. reflexivity.
Qed.

Lemma script_rerun_noop_witness :
  exists s' v,
    script Sample.salary_form (start None) = Ok (s', v)
    /\ submitted Sample.idle_form = false
    /\ script Sample.idle_form s' = Ok (s', v).
Proof.
  eexists _, _. split; [reflexivity|]. split; [reflexivity|].
  exact (script_rerun_noop Sample.salary_form Sample.idle_form (start None)
           _ _ eq_refl eq_refl).
Defined.

(** X4: the rows a process writes: after any series of runs on a store that
    has the relation, the table holds the rows it held, in place, followed
    by one row for each submitted form, in the order of submission, with
    consecutive ids taken from the sequence; forms not submitted leave no
    trace. *)
Theorem reruns_write_forms_in_order (ws : list Widgets) (s : State)
    (t : Table) :
  db (init_db s) = Some t ->
  serial_fresh t = true ->
  exists s',
    reruns ws s = Ok s'
    /\ db (init_db s')
       = Some (mkTable
           (tbl_rows t ++ Spec.form_rows (tbl_seq t) ws)
           (tbl_seq t
            + Z.of_nat (length (Spec.form_rows (tbl_seq t) ws)))).
Proof.
  revert s t. induction ws as [|w ws IH]; intros s t Hdb Hf.
  - exists s. split; [reflexivity|]. rewrite Hdb. destruct t as [rows i].
    cbn. now rewrite app_nil_r, Z.add_0_r.
  - destruct (script_run w s t Hdb Hf) as (df & Hrun & _).
    cbn [reruns]. rewrite Hrun.
    destruct (IH (mkState (Some (Spec.after_form w t)) true (Some df))
                (Spec.after_form w t) eq_refl (after_form_fresh w t Hf))
      as (s' & Hs' & Hdb').
    exists s'. split; [exact Hs'|]. rewrite Hdb'.
    unfold Spec.after_form. cbn [Spec.form_rows].
    destruct (submitted w); [|reflexivity].
    cbn [tbl_rows tbl_seq length]. rewrite <- app_assoc. cbn [app].
    do 2 f_equal. lia.
Qed.

Lemma reruns_write_forms_in_order_witness :
  (db (init_db (start None)) = Some empty_table
   /\ serial_fresh empty_table = true)
  /\ exists s',
       reruns [Sample.salary_form; Sample.idle_form; Sample.food_form]
         (start None) = Ok s'
       /\ db (init_db s')
          = Some (mkTable
              [mkRow 1 Sample.jan1 "Income" "Salary" 100000 (Some "");
               mkRow 2 Sample.jan2 "Expense" "Food" 1250 (Some "groceries")]
              3).
Proof.
  split; [split; reflexivity|].
  exact (reruns_write_forms_in_order
           [Sample.salary_form; Sample.idle_form; Sample.food_form]
           (start None) empty_table eq_refl eq_refl).
Defined.



End ScriptFacts.

(** ** The figures taken together *)

Section ChartFacts.
Import Frame Page.

Lemma where_type_skip (t : string) (r : Transaction) (df1 df2 : DataFrame) :
  type r <> t ->
  where_type t (df1 ++ r :: df2)%list = where_type t (df1 ++ df2)%list.
Proof.
  intros Hne. unfold where_type. rewrite !List.filter_app. cbn [List.filter].
  destruct (String.eqb_spec (type r) t); [contradiction|reflexivity].
Qed.

(** X9: a transaction whose type is neither "Income" nor "Expense" (another
    word, or the same word in other letter case) counts in no figure: the
    totals, the net value and both charts are what they are without it. *)
Theorem figures_ignore_other_types (df1 df2 : DataFrame) (r : Transaction) :
  type r <> "Income" ->
  type r <> "Expense" ->
  total_income (df1 ++ r :: df2)%list = total_income (df1 ++ df2)%list
  /\ total_expenses (df1 ++ r :: df2)%list = total_expenses (df1 ++ df2)%list
  /\ net_savings (df1 ++ r :: df2)%list = net_savings (df1 ++ df2)%list
  /\ fig_pie (df1 ++ r :: df2)%list = fig_pie (df1 ++ df2)%list
  /\ expenses_by_day (df1 ++ r :: df2)%list = expenses_by_day (df1 ++ df2)%list.
Proof.
  intros Hi He.
  unfold net_savings, total_income, total_expenses, fig_pie, expenses_by_day,
    expenses_df.
  rewrite (where_type_skip "Income" r df1 df2 Hi).
  rewrite (where_type_skip "Expense" r df1 df2 He).
  repeat split.
Qed.

Lemma figures_ignore_other_types_witness :
  (type (mkTransaction (to_datetime Sample.jan1) "income" "Salary" 100000 None)
   <> "Income"
   /\ type (mkTransaction (to_datetime Sample.jan1) "income" "Salary" 100000 None)
      <> "Expense")
  /\ total_income
       (Sample.two_days
        ++ [mkTransaction (to_datetime Sample.jan1) "income" "Salary" 100000
              None])%list
     = total_income (Sample.two_days ++ [])%list.
Proof.
  split; [split; discriminate|].
  apply (figures_ignore_other_types Sample.two_days []
           (mkTransaction (to_datetime Sample.jan1) "income" "Salary" 100000
              None)); discriminate.
Defined.

Lemma expenses_by_day_map (df : DataFrame) :
  Spec.ascending (expenses_by_day df)
  /\ (list_to_map (expenses_by_day df) : gmap Z Z)
     = Spec.accumulate Spec.day (expenses_df df) ∅.
Proof.
  unfold expenses_by_day, groupby_date_sum.
  exact (groupby_fold (expenses_df df) [] (SSorted_nil _)).
Qed.

Lemma where_type_forall (P : Transaction -> Prop) (t : string)
    (df : DataFrame) :
  Forall P df -> Forall P (where_type t df).
Proof.
  unfold where_type. induction 1 as [|r df Hr _ IH]; cbn [List.filter];
    [constructor|].
  destruct (String.eqb (type r) t); [now constructor|exact IH].
Qed.

Lemma total_nonneg (t : string) (df : DataFrame) :
  Forall (fun r => 0 < amount r) df -> 0 <= Spec.total df t.
Proof.
  induction 1 as [|r df Hr _ IH]; cbn [Spec.total]; [lia|].
  destruct (String.eqb (type r) t); lia.
Qed.

Lemma key_total_pos {K : Type} `{EqDecision K} (key : Transaction -> K)
    (k : K) (l : DataFrame) :
  Forall (fun r => 0 < amount r) l ->
  0 <= Spec.key_total key k l
  /\ (k ∈ key <$> l -> 0 < Spec.key_total key k l).
Proof.
  induction 1 as [|r l Hr _ [IH0 IH1]]; cbn [Spec.key_total].
  - split; [lia|]. intros Hin. now apply elem_of_nil in Hin.
  - rewrite fmap_cons, elem_of_cons.
    destruct (decide (key r = k)) as [Heq|Hne].
    + split; [lia|]. intros _. lia.
    + split; [exact IH0|]. intros [Heq|Hin]; [congruence|auto].
Qed.

Lemma accumulate_pos {K : Type} `{Countable K} (key : Transaction -> K)
    (l : DataFrame) (k : K) (x : Z) :
  Forall (fun r => 0 < amount r) l ->
  Spec.accumulate key l ∅ !! k = Some x -> 0 < x.
Proof.
  intros Hpos. rewrite accumulate_lookup, lookup_empty.
  destruct (decide (k ∈ key <$> l)) as [Hin|]; [|discriminate].
  intros [= <-]. cbn [from_option id].
  pose proof (proj2 (key_total_pos key k l Hpos) Hin). lia.
Qed.

(** X11: when every amount is positive, as the form ensures for the rows it
    writes, neither total is negative, every bar of the daily chart is
    positive and so is every value handed to the category chart. *)
Theorem positive_amounts_positive_figures (df : DataFrame) (d v : Z)
    (c : string) (x : Z) :
  Forall (fun r => 0 < amount r) df ->
  0 <= total_income df
  /\ 0 <= total_expenses df
  /\ (In (d, v) (expenses_by_day df) -> 0 < v)
  /\ (In (c, x) (fig_pie df) -> 0 < x).
Proof.
  intros Hpos.
  pose proof (where_type_forall _ "Expense" df Hpos) as Hexp.
  split; [unfold total_income; rewrite total_where; now apply total_nonneg|].
  split; [unfold total_expenses; rewrite total_where; now apply total_nonneg|].
  split.
  - intros Hin. destruct (expenses_by_day_map df) as [Ha Hm].
    apply list_elem_of_In in Hin.
    apply (elem_of_list_to_map_1 (M := gmap Z)) in Hin;
      [|now apply ascending_NoDup].
    rewrite Hm in Hin. now apply (accumulate_pos Spec.day _ d v Hexp).
  - unfold fig_pie, px_pie. intros Hin.
    apply in_map_iff in Hin as (r & [= _ <-] & Hr).
    rewrite Forall_forall in Hexp. apply Hexp. now apply list_elem_of_In.
Qed.

Lemma positive_amounts_positive_figures_witness :
  Forall (fun r => 0 < amount r) Sample.food_and_transport
  /\ 0 <= total_income Sample.food_and_transport
  /\ 0 <= total_expenses Sample.food_and_transport
  /\ (In (Sample.jan1, 2000) (expenses_by_day Sample.food_and_transport) ->
      0 < 2000)
  /\ (In ("Food", 2000) (fig_pie Sample.food_and_transport) -> 0 < 2000).
Proof.
  assert (Forall (fun r => 0 < amount r) Sample.food_and_transport) as Hpos
    by (repeat constructor).
  split; [exact Hpos|].
  exact (positive_amounts_positive_figures Sample.food_and_transport
           Sample.jan1 2000 "Food" 2000 Hpos).
Defined.

Lemma where_type_nil (t : string) (df : DataFrame) :
  where_type t df = [] -> Forall (fun r => type r <> t) df.
Proof.
  unfold where_type. induction df as [|r df IH]; cbn [List.filter];
    [constructor|].
  destruct (String.eqb_spec (type r) t); [discriminate|].
  intros Hnil. constructor; auto.
Qed.

(** X13: what the page shows.  The notice "no transactions" stands for the
    empty frame and for it alone.  Otherwise the history is the frame as
    read; the charts are withheld exactly when no transaction has type
    "Expense", and when they are drawn the category chart is handed at
    least one row and the daily series has at least one day. *)
Theorem render_cases (df : DataFrame) :
  match render df with
  | NoTransactions => df = []
  | Dashboard _ _ _ NoExpenses history =>
      history = df /\ df <> []
      /\ Forall (fun r => type r <> "Expense") df
  | Dashboard _ _ _ (Figures pie bar) history =>
      history = df
      /\ Exists (fun r => type r = "Expense") df
      /\ pie = fig_pie df /\ pie <> []
      /\ bar = expenses_by_day df /\ bar <> []
  end.
Proof.
  unfold render. destruct df as [|r0 df0]; [reflexivity|].
  cbn [empty]. set (df := r0 :: df0).
  destruct (expenses_df df) as [|e es] eqn:He; cbn [empty].
  - split; [reflexivity|]. split; [discriminate|].
    now apply where_type_nil.
  - assert (In e df /\ type e = "Expense") as [Hin Hty].
    { assert (In e (expenses_df df)) as H0 by (rewrite He; now left).
      unfold expenses_df, where_type in H0. apply filter_In in H0 as [? Ht].
      now apply String.eqb_eq in Ht. }
    split; [reflexivity|].
    split.
    { apply Exists_exists. exists e. split; [now apply list_elem_of_In|exact Hty]. }
    split; [reflexivity|]. split.
    + unfold fig_pie, px_pie. rewrite He. discriminate.
    + split; [reflexivity|]. intros Hnil.
      pose proof (expenses_by_day_lookup df (Spec.day e)) as Hl.
      rewrite Hnil, decide_True in Hl; [discriminate|].
      apply (expense_keys Spec.day). eauto.
Qed.

End ChartFacts.

Section MoreCoherence.
Import Store Frame App.

(** X7: a read that succeeded can be repeated: it left the database as it
    was, and the next call returns the same frame from the cache without
    changing anything. *)
Theorem get_all_transactions_repeatable (s s' : State) (df : DataFrame) :
  get_all_transactions s = Ok (s', df) ->
  db s' = db s
  /\ init_db_cached s' = init_db_cached s
  /\ get_all_transactions s' = Ok (s', df).
Proof.
  unfold get_all_transactions.
  destruct (transactions_cached s) as [df0|] eqn:Hc.
  - intros [= <- <-]. rewrite Hc. auto.
  - destruct (read_transactions (db s)) as [df1|]; [|discriminate].
    intros [= <- <-]. auto.
Qed.

Lemma get_all_transactions_repeatable_witness :
  exists s' df,
    get_all_transactions (mkState (Some Sample.three_rows) true None)
    = Ok (s', df)
    /\ db s' = Some Sample.three_rows
    /\ init_db_cached s' = true
    /\ get_all_transactions s' = Ok (s', df).
Proof.
  eexists _, _. split; [reflexivity|].
  exact (get_all_transactions_repeatable
           (mkState (Some Sample.three_rows) true None) _ _ eq_refl).
Defined.

Lemma script_coherent_witness :
  exists s' v,
    (coherent (start None)
     /\ script Sample.food_form (start None) = Ok (s', v))
    /\ coherent s'.
Proof.
  eexists _, _. split; [split; [exact I|reflexivity]|].
  exact (script_coherent Sample.food_form (start None) _ _ I eq_refl).
Defined.

End MoreCoherence.
